(** * insights/client/client.py: registration state and upload retry

    A shallow embedding of the registration, unregistration and upload
    functions of [insights.client.client].  The functions are stateful
    (marker files on disk, calls to the remote service, sleeps, log lines)
    and fallible (Python exceptions), so they are written in a small
    state-and-exception monad over a [World]: the local store and the
    chronological trace of the effects performed so far. *)

From Stdlib Require Import List String ZArith Bool Lia.
Import ListNotations.

Local Open Scope string_scope.
Local Open Scope Z_scope.

(* ------------------------------------------------------------------ *)
(** ** Python values used by the client *)

(** The exceptions named in client.py ([connection.py] defines the four
    typed upload failures), plus the built-in ones that the code can
    raise by itself. *)
Inductive exn : Type :=
| RuntimeError (msg : string)
| AttributeError (msg : string)
| ValueError (msg : string)
| TimeoutException
| PayloadTooLargeException
| UnregisteredException
| InvalidContentTypeException
| OtherException (name : string).

(** The object returned by [pconn.upload_archive]: a [requests.Response].
    Only [status_code] and [text] are read by the client. *)
Record Response : Type := mkResponse {
  status_code : Z;
  text : string
}.

(** Truth value of a response, as tested by [if not upload]: a
    [requests.Response] is true exactly when it is [ok], that is when its
    status is not a 4xx or 5xx error status. *)
Definition response_ok (r : Response) : bool :=
  negb ((400 <=? status_code r) && (status_code r <? 600)).

(** The local variable [upload] holds a response or [None]. *)
Definition py_bool_upload (upload : option Response) : bool :=
  match upload with
  | None => false
  | Some r => response_ok r
  end.

(** Truth value of an optional string ([None] and [''] are false). *)
Definition py_bool_str (s : option string) : bool :=
  match s with
  | None => false
  | Some "" => false
  | Some _ => true
  end.

(** What a call to a collaborator does: return a value or raise. *)
Inductive outcome (A : Type) : Type :=
| Returns (a : A)
| Raises (e : exn).
Arguments Returns {A} a.
Arguments Raises {A} e.

(* ------------------------------------------------------------------ *)
(** ** Configuration and remote service *)

(** The attributes of [config] read by the functions below. *)
Record InsightsConfig : Type := mkConfig {
  legacy_upload : bool;
  reregister : bool;
  register : bool;
  force : bool;
  authmethod : string;
  username : option string;
  password : option string;
  retries : Z;
  account_number : option string;
  display_name : option string;
  logging_file : string
}.

(** The remote service behind [pconn].  [on_upload_archive k] is what the
    call number [k] (counted from 0) of [upload_archive] does; the other
    three calls are made at most once by each operation. *)
Record InsightsConnection : Type := mkConnection {
  on_registration_check : outcome bool;
  on_register : outcome unit;
  on_unregister : outcome bool;
  on_upload_archive : nat -> outcome Response
}.

(* ------------------------------------------------------------------ *)
(** ** Local store, effects and the world *)

(** The files the client keeps on the host. *)
Record LocalStore : Type := mkStore {
  registered_file : bool;
  unregistered_file : bool;
  machine_id_file : bool;
  lastupload_file : bool;
  last_upload_results_file : option string;
  cache_files : bool;
  scheduling : bool
}.

Inductive store_op : Type :=
| WriteRegistered
| WriteUnregistered
| DeleteRegistered
| DeleteUnregistered
| DeleteMachineId
| GenerateMachineId
| WriteLastUpload
| WriteLastUploadResults
| DeleteCacheFiles
| RemoveScheduling.

Inductive level : Type := DEBUG | INFO | ERROR.

(** One observable effect.  A store effect records the store as it is
    immediately after the operation. *)
Inductive event : Type :=
| EvLog (lvl : level) (msg : string)
| EvRegistrationCheck
| EvRegister
| EvUnregister
| EvUploadArchive (tar_file content_type : string)
                  (collection_duration : option Z)
| EvSleep (seconds : Z)
| EvStore (op : store_op) (after : LocalStore).

Record World : Type := mkWorld {
  store : LocalStore;
  trace : list event
}.

(** A world in which nothing has happened yet. *)
Definition fresh (s : LocalStore) : World := mkWorld s [].

Definition is_upload_attempt (e : event) : bool :=
  match e with EvUploadArchive _ _ _ => true | _ => false end.

Definition is_sleep (e : event) : bool :=
  match e with EvSleep _ => true | _ => false end.

Definition is_register (e : event) : bool :=
  match e with EvRegister => true | _ => false end.

Definition is_unregister (e : event) : bool :=
  match e with EvUnregister => true | _ => false end.

Definition is_store (e : event) : bool :=
  match e with EvStore _ _ => true | _ => false end.

Definition count (p : event -> bool) (w : World) : nat :=
  List.length (filter p (trace w)).

Definition attempts (w : World) : nat := count is_upload_attempt w.
Definition sleeps (w : World) : nat := count is_sleep w.

(* ------------------------------------------------------------------ *)
(** ** The monad: state passing with exceptions *)

Inductive result (A : Type) : Type :=
| Ret (a : A)
| Raise (e : exn).
Arguments Ret {A} a.
Arguments Raise {A} e.

Definition M (A : Type) : Type := World -> result A * World.

Definition ret {A} (a : A) : M A := fun w => (Ret a, w).

Definition raise {A} (e : exn) : M A := fun w => (Raise e, w).

Definition bind {A B} (m : M A) (k : A -> M B) : M B :=
  fun w =>
    match m w with
    | (Ret a, w') => k a w'
    | (Raise e, w') => (Raise e, w')
    end.

(** [try: m except h]: the handler decides, by re-raising, which
    exceptions it lets through. *)
Definition try_except {A} (m : M A) (h : exn -> M A) : M A :=
  fun w =>
    match m w with
    | (Ret a, w') => (Ret a, w')
    | (Raise e, w') => h e w'
    end.

Declare Scope py_scope.
Delimit Scope py_scope with py.
Notation "x <- m ;; k" := (bind m (fun x => k))
  (at level 100, m at next level, right associativity) : py_scope.
Notation "m ;; k" := (bind m (fun _ => k))
  (at level 100, right associativity) : py_scope.
Local Open Scope py_scope.

Definition emit (e : event) : M unit :=
  fun w => (Ret tt, mkWorld (store w) (trace w ++ [e])).

Definition update_store (op : store_op) (f : LocalStore -> LocalStore)
  : M unit :=
  fun w =>
    let s := f (store w) in
    (Ret tt, mkWorld s (trace w ++ [EvStore op s])).

Definition lift_outcome {A} (o : outcome A) : M A :=
  match o with
  | Returns a => ret a
  | Raises e => raise e
  end.

(** Control after one pass through the body of a [for] loop: fall off the
    end of the body, [break], or [return] from the enclosing function.
    [V] is the type of the local variables the loop assigns. *)
Inductive flow (V R : Type) : Type :=
| Next (v : V)
| Break (v : V)
| Return (r : R).
Arguments Next {V R} v.
Arguments Break {V R} v.
Arguments Return {V R} r.

Fixpoint for_each {A V R} (xs : list A) (body : A -> V -> M (flow V R))
  (v : V) : M (flow V R) :=
  match xs with
  | [] => ret (Next v)
  | x :: xs' =>
      fun w =>
        match body x v w with
        | (Ret (Next v'), w') => for_each xs' body v' w'
        | other => other
        end
  end.

(** Python's [range(n)]: empty when [n <= 0]. *)
Definition range (n : Z) : list Z :=
  map Z.of_nat (seq 0 (Z.to_nat n)).

(* ------------------------------------------------------------------ *)
(** ** Collaborators of client.py

    [utilities.py], [support.py], [schedule.py], [constants.py] and
    [connection.py] are not part of the source at hand; what the client
    needs of them is written here. *)

Definition logger_debug (msg : string) : M unit := emit (EvLog DEBUG msg).
Definition logger_info (msg : string) : M unit := emit (EvLog INFO msg).
Definition logger_error (msg : string) : M unit := emit (EvLog ERROR msg).

Definition time_sleep (seconds : Z) : M unit := emit (EvSleep seconds).

(** The files named by [constants] that the client passes around. *)
Module constants.
Inductive file : Type :=
| machine_id_file
| lastupload_file.
End constants.

Definition set_registered (b : bool) (s : LocalStore) : LocalStore :=
  mkStore b (unregistered_file s) (machine_id_file s) (lastupload_file s)
          (last_upload_results_file s) (cache_files s) (scheduling s).

Definition set_unregistered (b : bool) (s : LocalStore) : LocalStore :=
  mkStore (registered_file s) b (machine_id_file s) (lastupload_file s)
          (last_upload_results_file s) (cache_files s) (scheduling s).

Definition set_machine_id (b : bool) (s : LocalStore) : LocalStore :=
  mkStore (registered_file s) (unregistered_file s) b (lastupload_file s)
          (last_upload_results_file s) (cache_files s) (scheduling s).

Definition set_lastupload (b : bool) (s : LocalStore) : LocalStore :=
  mkStore (registered_file s) (unregistered_file s) (machine_id_file s) b
          (last_upload_results_file s) (cache_files s) (scheduling s).

Definition set_last_upload_results (r : option string) (s : LocalStore)
  : LocalStore :=
  mkStore (registered_file s) (unregistered_file s) (machine_id_file s)
          (lastupload_file s) r (cache_files s) (scheduling s).

Definition set_cache_files (b : bool) (s : LocalStore) : LocalStore :=
  mkStore (registered_file s) (unregistered_file s) (machine_id_file s)
          (lastupload_file s) (last_upload_results_file s) b (scheduling s).

Definition set_scheduling (b : bool) (s : LocalStore) : LocalStore :=
  mkStore (registered_file s) (unregistered_file s) (machine_id_file s)
          (lastupload_file s) (last_upload_results_file s) (cache_files s) b.

(** Modelled from the spec: [utilities.write_registered_file] is missing.
    "Local registered and unregistered markers are mutually exclusive:
    writing one must remove the other." *)
Definition write_registered_file : M unit :=
  update_store WriteRegistered
    (fun s => set_registered true (set_unregistered false s)).

(** Modelled from the spec: [utilities.write_unregistered_file] is
    missing.  Writing the unregistered marker removes the registered one. *)
Definition write_unregistered_file : M unit :=
  update_store WriteUnregistered
    (fun s => set_unregistered true (set_registered false s)).

(** Modelled from the spec: [utilities.delete_registered_file] is missing.
    "Deleting a non-existent marker is a no-op, not an error." *)
Definition delete_registered_file : M unit :=
  update_store DeleteRegistered (set_registered false).

(** Modelled from the spec: [utilities.delete_unregistered_file] is
    missing; as [delete_registered_file], for the other marker. *)
Definition delete_unregistered_file : M unit :=
  update_store DeleteUnregistered (set_unregistered false).

(** Modelled from the spec: [utilities.delete_cache_files] is missing; it
    "deletes cached collection state". *)
Definition delete_cache_files : M unit :=
  update_store DeleteCacheFiles (set_cache_files false).

(** Modelled from the spec: [utilities.write_to_disk] is missing.  The
    client uses it to delete the machine-identity record
    ([delete=True]) and to write the last-upload timestamp marker. *)
Definition write_to_disk (f : constants.file) (delete : bool) : M unit :=
  match f with
  | constants.machine_id_file =>
      if delete then update_store DeleteMachineId (set_machine_id false)
      else update_store GenerateMachineId (set_machine_id true)
  | constants.lastupload_file =>
      update_store WriteLastUpload (set_lastupload (negb delete))
  end.

(** [with open(constants.last_upload_results_file, 'w') as handler:
    handler.write(...)]: the record is overwritten with the text given. *)
Definition write_last_upload_results (body : string) : M unit :=
  update_store WriteLastUploadResults
    (set_last_upload_results (Some body)).

(** Modelled from the spec: [utilities.generate_machine_id] is missing.
    "Resolve/generate the machine identity (regenerate only if forced)":
    afterwards the identity record exists.  The identity itself is
    opaque and only logged. *)
Definition generate_machine_id (new : bool) : M unit :=
  update_store GenerateMachineId (set_machine_id true).

(** Modelled from the spec: [schedule.get_scheduler(config)
    .remove_scheduling()] is missing; it "removes any scheduled
    collection". *)
Definition remove_scheduling (config : InsightsConfig) : M unit :=
  update_store RemoveScheduling (set_scheduling false).

(** Modelled from the spec: [support.registration_check] is missing.  It
    is the query [RemoteService.checkRegistration() -> bool], which can
    fail; it leaves the local store alone. *)
Definition registration_check (pconn : InsightsConnection) : M bool :=
  emit EvRegistrationCheck ;; lift_outcome (on_registration_check pconn).

(** The three methods of [pconn] that the client calls. *)
Module Conn.

Definition register (pconn : InsightsConnection) : M unit :=
  emit EvRegister ;; lift_outcome (on_register pconn).

Definition unregister (pconn : InsightsConnection) : M bool :=
  emit EvUnregister ;; lift_outcome (on_unregister pconn).

Definition upload_archive (pconn : InsightsConnection)
  (tar_file content_type : string) (collection_duration : option Z)
  : M Response :=
  fun w =>
    (emit (EvUploadArchive tar_file content_type collection_duration) ;;
     lift_outcome (on_upload_archive pconn (attempts w))) w.

End Conn.

(** Attribute access on the local variable [upload]: on [None] it raises
    [AttributeError]. *)
Definition getattr_status_code (upload : option Response) : M Z :=
  match upload with
  | Some r => ret (status_code r)
  | None =>
      raise (AttributeError
               "'NoneType' object has no attribute 'status_code'")
  end.

Definition getattr_text (upload : option Response) : M string :=
  match upload with
  | Some r => ret (text r)
  | None => raise (AttributeError "'NoneType' object has no attribute 'text'")
  end.

(* ------------------------------------------------------------------ *)
(** ** client.py: registration *)

Definition _legacy_handle_registration (config : InsightsConfig)
  (pconn : InsightsConnection) : M bool :=
  logger_debug "Trying registration." ;;
  (if reregister config then
     delete_registered_file ;;
     delete_unregistered_file ;;
     write_to_disk constants.machine_id_file true ;;
     logger_debug "Re-register set, forcing registration."
   else ret tt) ;;
  generate_machine_id (reregister config) ;;
  logger_debug "Machine-id: %s" ;;
  check <- registration_check pconn ;;
  if check then
    (if register config then
       logger_info "This host has already been registered."
     else ret tt) ;;
    ret true
  else if register config then
    if (authmethod config =? "BASIC")%string
       && negb (py_bool_str (username config)
                && py_bool_str (password config))
    then
      logger_info "Username and password must be defined in configuration file with BASIC authentication method." ;;
      ret false
    else
      Conn.register pconn ;;
      write_registered_file ;;
      ret true
  else
    logger_info "This machine has not been registered.Use --register to register this machine." ;;
    ret false.

(** Without [legacy_upload] the function falls off its end and returns
    [None]. *)
Definition handle_registration (config : InsightsConfig)
  (pconn : InsightsConnection) : M (option bool) :=
  if legacy_upload config then
    b <- _legacy_handle_registration config pconn ;; ret (Some b)
  else ret None.

Definition __cleanup_local_files (config : InsightsConfig) : M unit :=
  write_unregistered_file ;;
  remove_scheduling config ;;
  delete_cache_files.

Definition _legacy_handle_unregistration (config : InsightsConfig)
  (pconn : InsightsConnection) : M bool :=
  r <- try_except
         (check <- registration_check pconn ;; ret (inl check))
         (fun e =>
            match e with
            | RuntimeError _ =>
                if force config then
                  __cleanup_local_files config ;; ret (inr true)
                else raise e
            | _ => raise e
            end) ;;
  match r with
  | inr returned => ret returned
  | inl check =>
      unreg <- (if check then Conn.unregister pconn
                else
                  logger_info "This system is already unregistered." ;;
                  ret true) ;;
      (if unreg then __cleanup_local_files config else ret tt) ;;
      ret unreg
  end.

Definition handle_unregistration (config : InsightsConfig)
  (pconn : InsightsConnection) : M bool :=
  if legacy_upload config then _legacy_handle_unregistration config pconn
  else
    unreg <- Conn.unregister pconn ;;
    (if unreg || force config then
       write_unregistered_file ;;
       delete_cache_files
     else ret tt) ;;
    ret unreg.

(* ------------------------------------------------------------------ *)
(** ** client.py: upload *)

Section Upload.

(** [constants.sleep_time], the fixed backoff in seconds. *)
Variable sleep_time : Z.

(** [json.loads]: the parsed value, or [None] where it raises
    [ValueError]. *)
Variable Json : Type.
Variable json_loads : string -> option Json.

Definition py_json_loads (s : string) : M Json :=
  match json_loads s with
  | Some j => ret j
  | None => raise (ValueError "No JSON object could be decoded")
  end.

(** One pass through the body of the loop of [_legacy_upload].  The
    loop assigns the local variable [api_response]. *)
Definition _legacy_upload_body (config : InsightsConfig)
  (pconn : InsightsConnection) (tar_file : string)
  (collection_duration : option Z) (tries : Z)
  (api_response : option Json) : M (flow (option Json) (option Json)) :=
  upload <- try_except
              (r <- Conn.upload_archive pconn tar_file ""
                      collection_duration ;;
               ret (Some r))
              (fun e =>
                 match e with
                 | TimeoutException => ret None
                 | PayloadTooLargeException
                 | UnregisteredException =>
                     raise (RuntimeError "Upload failed.")
                 | _ => raise e
                 end) ;;
  (if negb (py_bool_upload upload) then
     code <- getattr_status_code upload ;;
     logger_error "Upload attempt %d of %d failed! Status Code: %s" ;;
     if negb (tries + 1 =? retries config) then
       logger_info "Waiting %d seconds then retrying" ;;
       time_sleep sleep_time
     else
       logger_error "All attempts to upload have failed!" ;;
       logger_error "Please see %s for additional information" ;;
       raise (RuntimeError "Upload failed.")
   else ret tt) ;;
  body <- getattr_text upload ;;
  parsed <- py_json_loads body ;;
  write_last_upload_results body ;;
  write_to_disk constants.lastupload_file false ;;
  (if py_bool_str (account_number config) then
     logger_info "Successfully uploaded report from %s to account %s."
   else
     logger_info "Successfully uploaded report for %s.") ;;
  (if register config then
     logger_info "View the Red Hat Insights console at https://cloud.redhat.com/insights/"
   else ret tt) ;;
  ret (Break (Some parsed)).

Definition _legacy_upload (config : InsightsConfig)
  (pconn : InsightsConnection) (tar_file content_type : string)
  (collection_duration : option Z) : M (option Json) :=
  logger_info "Uploading Insights data." ;;
  f <- for_each (range (retries config))
         (_legacy_upload_body config pconn tar_file collection_duration)
         None ;;
  match f with
  | Next api_response | Break api_response => ret api_response
  | Return r => ret r
  end.

(** One pass through the body of the loop of [upload]. *)
Definition upload_body (config : InsightsConfig)
  (pconn : InsightsConnection) (tar_file content_type : string)
  (collection_duration : option Z) (tries : Z) (_ : unit)
  : M (flow unit (option Json)) :=
  upload <- try_except
              (r <- Conn.upload_archive pconn tar_file content_type
                      collection_duration ;;
               ret (Some r))
              (fun e =>
                 match e with
                 | TimeoutException => ret None
                 | PayloadTooLargeException
                 | InvalidContentTypeException =>
                     raise (RuntimeError "Upload failed.")
                 | _ => raise e
                 end) ;;
  (if negb (py_bool_upload upload) then
     code <- getattr_status_code upload ;;
     logger_error "Upload attempt %d of %d failed! Status code: %s" ;;
     if negb (tries + 1 =? retries config) then
       logger_info "Waiting %d seconds then retrying" ;;
       time_sleep sleep_time
     else
       logger_error "All attempts to upload have failed!" ;;
       logger_error "Please see %s for additional information" ;;
       raise (RuntimeError "Upload failed.")
   else ret tt) ;;
  write_to_disk constants.lastupload_file false ;;
  logger_info "Successfully uploaded report for %s." ;;
  (if register config then
     logger_info "View the Red Hat Insights console at https://cloud.redhat.com/insights/"
   else ret tt) ;;
  ret (Return None).

(** [upload] returns what [_legacy_upload] returns under
    [legacy_upload], and [None] otherwise, also when the loop ends
    without an iteration. *)
Definition upload (config : InsightsConfig) (pconn : InsightsConnection)
  (tar_file content_type : string) (collection_duration : option Z)
  : M (option Json) :=
  if legacy_upload config then
    _legacy_upload config pconn tar_file content_type collection_duration
  else
    logger_info "Uploading Insights data." ;;
    f <- for_each (range (retries config))
           (upload_body config pconn tar_file content_type
              collection_duration)
           tt ;;
    match f with
    | Next _ | Break _ => ret None
    | Return r => ret r
    end.

End Upload.

(* ------------------------------------------------------------------ *)
(** ** Concrete inputs used in the examples below *)

Definition empty_store : LocalStore :=
  mkStore false false false false None true true.

Definition registered_store : LocalStore :=
  mkStore true false true false None true true.

Definition example_config (legacy : bool) (n : Z) : InsightsConfig :=
  mkConfig legacy false false false "CERT" None None n None None
           "/var/log/insights-client/insights-client.log".

Definition force_config (legacy : bool) : InsightsConfig :=
  mkConfig legacy false false true "CERT" None None 1 None None
           "/var/log/insights-client/insights-client.log".

(** Explicit registration with BASIC authentication and no username. *)
Definition basic_config : InsightsConfig :=
  mkConfig true false true false "BASIC" None (Some "secret") 1 None None
           "/var/log/insights-client/insights-client.log".

Definition response_500 : Response := mkResponse 500 "Internal Server Error".
Definition response_200 : Response := mkResponse 200 "{}".

(** A service whose every upload call raises [e]. *)
Definition always_raises (e : exn) : InsightsConnection :=
  mkConnection (Returns true) (Returns tt) (Returns true)
               (fun _ => Raises e).

(** A service that answers status 500 twice and then status 200. *)
Definition fails_twice : InsightsConnection :=
  mkConnection (Returns true) (Returns tt) (Returns true)
               (fun k => match k with
                         | 0%nat | 1%nat => Returns response_500
                         | _ => Returns response_200
                         end).

(** A service with the given answers to the registration query and to
    [unregister]. *)
Definition service (check : outcome bool) (unreg : outcome bool)
  : InsightsConnection :=
  mkConnection check (Returns tt) unreg (fun _ => Returns response_200).

(* ------------------------------------------------------------------ *)
(** ** Observations on a run *)

Definition is_write_registered (e : event) : bool :=
  match e with EvStore WriteRegistered _ => true | _ => false end.

(** The local cleanup of the legacy unregistration has been done. *)
Definition cleaned_up (s : LocalStore) : Prop :=
  unregistered_file s = true
  /\ scheduling s = false
  /\ cache_files s = false.

(** What holds right after a marker has been written: the other marker
    is absent. *)
Definition exclusive_after (e : event) : Prop :=
  match e with
  | EvStore WriteRegistered after =>
      registered_file after = true /\ unregistered_file after = false
  | EvStore WriteUnregistered after =>
      unregistered_file after = true /\ registered_file after = false
  | _ => True
  end.

(** Every marker write of the run left the other marker absent. *)
Definition exclusive_run {A} (run : result A * World) : Prop :=
  Forall exclusive_after (trace (snd run)).

(** A computation that, started after a run in which every marker write
    left the other marker absent, extends it to such a run. *)
Definition keeps_exclusive {A} (m : M A) : Prop :=
  forall w,
    Forall exclusive_after (trace w) ->
    Forall exclusive_after (trace (snd (m w))).

(** The world after a call to [upload_archive] alone. *)
Definition called (tar_file : string) (collection_duration : option Z)
  (w : World) (content_type : string) : World :=
  mkWorld (store w)
    (trace w
     ++ [EvUploadArchive tar_file content_type collection_duration]).

(* ------------------------------------------------------------------ *)
(** ** Further observations *)

Definition is_registration_check (e : event) : bool :=
  match e with EvRegistrationCheck => true | _ => false end.

Definition is_write_unregistered (e : event) : bool :=
  match e with EvStore WriteUnregistered _ => true | _ => false end.

(** The test that guards [pconn.register()]:
    [config.authmethod == 'BASIC' and not (config.username and
    config.password)]. *)
Definition credentials_missing (config : InsightsConfig) : bool :=
  (authmethod config =? "BASIC")%string
  && negb (py_bool_str (username config)
           && py_bool_str (password config)).

(** The two markers of a store. *)
Definition markers (s : LocalStore) : bool * bool :=
  (registered_file s, unregistered_file s).

(** The part of the store that no upload writes. *)
Definition registration_state (s : LocalStore)
  : bool * bool * bool * bool * bool :=
  (registered_file s, unregistered_file s, machine_id_file s,
   cache_files s, scheduling s).

(** A stand-in for [json.loads] in the examples: it accepts the empty
    object only. *)
Definition loads_empty_object (s : string) : option (list string) :=
  if (s =? "{}")%string then Some [] else None.

(** A service whose every upload call returns [r]. *)
Definition always_returns (r : Response) : InsightsConnection :=
  mkConnection (Returns true) (Returns tt) (Returns true)
               (fun _ => Returns r).

(** The world in which the first pass of an upload loop starts. *)
Definition started (s : LocalStore) : World :=
  mkWorld s [EvLog INFO "Uploading Insights data."].

(* ------------------------------------------------------------------ *)
(** ** client.py: logging set-up

    [get_file_handler], [get_console_handler], [configure_level] and
    [set_up_logging] act on the state of Python's [logging] module and on
    the file system, not on the local store: they are written as plain
    state passing over a [Logging.State]. *)

Module Logging.

Definition ERROR : Z := 40.
Definition WARNING : Z := 30.
Definition INFO : Z := 20.
Definition DEBUG : Z := 10.


(** The attributes of [config] read by the logging functions. *)
Record Config : Type := mkConfig {
  silent : bool;
  verbose : bool;
  net_debug : bool;
  quiet : bool;
  loglevel : string;
  logging_file : string
}.

Inductive Handler : Type :=
| StreamHandler (level : Z) (format : string)
| RotatingFileHandler (log_file : string) (backupCount : Z)
                      (format : string).

(** What the logging functions read and change: the table of level
    names ([logging.addLevelName], [logging.getLevelName]), the handlers
    and the level of the root logger, the levels of the module's own
    logger and of ['insights.core.dr'], the directories that exist, the
    lines printed and the messages passed to [logger.debug]. *)
Record State : Type := mkState {
  level_names : list (string * Z);
  root_handlers : list Handler;
  root_level : Z;
  client_level : Z;
  dr_level : Z;
  directories : list string;
  printed : list string;
  debug_calls : list string
}.

Definition name_to_level (names : list (string * Z)) (name : string)
  : option Z :=
  match find (fun p => (fst p =? name)%string) names with
  | Some p => Some (snd p)
  | None => None
  end.


(** [logging.getLevelName(name)] on a string: the level that the name
    stands for, or the string ['Level ' + name] when it stands for
    none. *)
Definition getLevelName (name : string) (st : State) : Z + string :=
  match name_to_level (level_names st) name with
  | Some level => inl level
  | None => inr ("Level " ++ name)
  end.


Definition set_levels (level : Z) (st : State) : State :=
  mkState (level_names st) (root_handlers st) level level (dr_level st)
    (directories st) (printed st) (debug_calls st).

Definition set_dr_level (level : Z) (st : State) : State :=
  mkState (level_names st) (root_handlers st) (root_level st)
    (client_level st) level (directories st) (printed st)
    (debug_calls st).

Definition print (line : string) (st : State) : State :=
  mkState (level_names st) (root_handlers st) (root_level st)
    (client_level st) (dr_level st) (directories st)
    (printed st ++ [line]) (debug_calls st).

Definition logger_debug (msg : string) (st : State) : State :=
  mkState (level_names st) (root_handlers st) (root_level st)
    (client_level st) (dr_level st) (directories st) (printed st)
    (debug_calls st ++ [msg]).



Section Functions.

(** [constants.custom_network_log_level]. *)
Variable NETWORK : Z.

(** [os.path.dirname]. *)
Variable dirname : string -> string.



(** [type(init_log_level) in six.string_types] is read as under
    Python 3: it holds when [getLevelName] returned a string. *)
Definition configure_level (config : Config) (st : State) : State :=
  let config_level :=
    if net_debug config then "NETWORK" else loglevel config in
  let config_level :=
    if verbose config then "DEBUG" else loglevel config in
  let (init_log_level, st1) :=
    match getLevelName config_level st with
    | inl level => (level, st)
    | inr _ =>
        (DEBUG,
         print ("Invalid log level " ++ config_level
                ++ ", defaulting to DEBUG") st)
    end in
  let st2 := set_levels init_log_level st1 in
  if negb (verbose config) then set_dr_level WARNING st2 else st2.


End Functions.

(** The level names that [logging] knows when it is loaded. *)
Definition default_level_names : list (string * Z) :=
  [("CRITICAL", 50); ("FATAL", 50); ("ERROR", 40); ("WARN", 30);
   ("WARNING", 30); ("INFO", 20); ("DEBUG", 10); ("NOTSET", 0)].

(** [logging] as loaded, on a host where [/var/log] exists. *)
Definition initial : State :=
  mkState default_level_names [] WARNING 0 0 ["/var/log"] [] [].


Definition example_config (is_verbose : bool) (level : string) : Config :=
  mkConfig false is_verbose false false level
    "/var/log/insights-client/insights-client.log".

End Logging.

(* ------------------------------------------------------------------ *)
(** ** Loops and ranges *)

Lemma range_nonpos (n : Z) : n <= 0 -> range n = [].
Proof.
  intros Hn. unfold range.
  replace (Z.to_nat n) with 0%nat by lia. reflexivity.
Qed.

Lemma range_pos (n : Z) :
  0 < n -> range n = 0 :: map Z.of_nat (seq 1 (Z.to_nat (n - 1))).
Proof.
  intros Hn. unfold range.
  replace (Z.to_nat n) with (S (Z.to_nat (n - 1))) by lia.
  reflexivity.
Qed.

(** A pass that raises, breaks or returns ends the loop. *)
Lemma for_each_stops {A V R} (x : A) (xs : list A)
  (body : A -> V -> M (flow V R)) (v : V) (w : World) :
  (forall v', fst (body x v w) <> Ret (Next v')) ->
  for_each (x :: xs) body v w = body x v w.
Proof.
  intros Hstop. cbn [for_each].
  destruct (body x v w) as [[[v' | v' | r] | e] w'] eqn:E; try reflexivity.
  exfalso. apply (Hstop v'). reflexivity.
Qed.

(* ------------------------------------------------------------------ *)
(** ** One pass through the upload loops *)

Section UploadPass.

Variable sleep_time : Z.
Variable Json : Type.
Variable json_loads : string -> option Json.
Variables (config : InsightsConfig) (pconn : InsightsConnection).
Variables (tar_file content_type : string).
Variable collection_duration : option Z.

Ltac run_pass H :=
  unfold upload_body, _legacy_upload_body, bind, try_except,
    Conn.upload_archive, emit, lift_outcome, ret, raise;
  cbn beta iota; rewrite H; cbn beta iota; try reflexivity.

Lemma upload_body_fatal (tries : Z) (w : World) (e : exn) :
  on_upload_archive pconn (attempts w) = Raises e ->
  e = PayloadTooLargeException \/ e = InvalidContentTypeException ->
  upload_body sleep_time Json config pconn tar_file content_type
    collection_duration tries tt w
  = (Raise (RuntimeError "Upload failed."), called tar_file collection_duration w content_type).
Proof.
  intros H [-> | ->]; run_pass H.
Qed.

Lemma legacy_upload_body_fatal (tries : Z) (v : option Json) (w : World)
  (e : exn) :
  on_upload_archive pconn (attempts w) = Raises e ->
  e = PayloadTooLargeException \/ e = UnregisteredException ->
  _legacy_upload_body sleep_time Json json_loads config pconn tar_file
    collection_duration tries v w
  = (Raise (RuntimeError "Upload failed."), called tar_file collection_duration w "").
Proof.
  intros H [-> | ->]; run_pass H.
Qed.

(** After a timeout [upload] is [None], and reading its status for the
    log line raises. *)
Lemma upload_body_timeout (tries : Z) (w : World) :
  on_upload_archive pconn (attempts w) = Raises TimeoutException ->
  upload_body sleep_time Json config pconn tar_file content_type
    collection_duration tries tt w
  = (Raise (AttributeError
              "'NoneType' object has no attribute 'status_code'"),
     called tar_file collection_duration w content_type).
Proof.
  intros H; run_pass H.
Qed.

Lemma legacy_upload_body_timeout (tries : Z) (v : option Json)
  (w : World) :
  on_upload_archive pconn (attempts w) = Raises TimeoutException ->
  _legacy_upload_body sleep_time Json json_loads config pconn tar_file
    collection_duration tries v w
  = (Raise (AttributeError
              "'NoneType' object has no attribute 'status_code'"),
     called tar_file collection_duration w "").
Proof.
  intros H; run_pass H.
Qed.

End UploadPass.

(* ------------------------------------------------------------------ *)
(** ** Upload: failures that are not retried *)

Section UploadFacts.

Variable sleep_time : Z.
Variable Json : Type.
Variable json_loads : string -> option Json.

(** The first pass of either loop, when the first call raises one of
    the failures that the variant turns into [RuntimeError]. *)
Lemma upload_first_call_fatal (config : InsightsConfig)
  (pconn : InsightsConnection) (tar_file content_type : string)
  (collection_duration : option Z) (s : LocalStore) (e : exn) :
  1 <= retries config ->
  on_upload_archive pconn 0 = Raises e ->
  e = PayloadTooLargeException
  \/ (if legacy_upload config then e = UnregisteredException
      else e = InvalidContentTypeException) ->
  upload sleep_time Json json_loads config pconn tar_file content_type
    collection_duration (fresh s)
  = (Raise (RuntimeError "Upload failed."),
     mkWorld s
       [EvLog INFO "Uploading Insights data.";
        EvUploadArchive tar_file
          (if legacy_upload config then "" else content_type)
          collection_duration]).
Proof.
  intros Hn Hcall He.
  unfold upload, _legacy_upload.
  rewrite (range_pos (retries config)) by lia.
  destruct (legacy_upload config);
    unfold bind at 1; unfold logger_info at 1, emit at 1; cbn beta iota;
    unfold bind at 1; rewrite for_each_stops.
  - rewrite (legacy_upload_body_fatal _ _ _ _ _ _ _ _ _ _ e);
      [reflexivity | exact Hcall | tauto].
  - rewrite (legacy_upload_body_fatal _ _ _ _ _ _ _ _ _ _ e);
      [cbn; congruence | exact Hcall | tauto].
  - rewrite (upload_body_fatal _ _ _ _ _ _ _ _ _ e);
      [reflexivity | exact Hcall | tauto].
  - rewrite (upload_body_fatal _ _ _ _ _ _ _ _ _ e);
      [cbn; congruence | exact Hcall | tauto].
Qed.

(** C4.  For every retry count above 1, when the first call to
    [upload_archive] raises PayloadTooLarge (in either variant),
    Unregistered (legacy variant) or InvalidContentType (modern
    variant), [upload] raises [RuntimeError('Upload failed.')] at once:
    one attempt has been made, no sleep has occurred, and the local
    store is as it was. *)
Theorem upload_fatal_not_retried (config : InsightsConfig)
  (pconn : InsightsConnection) (tar_file content_type : string)
  (collection_duration : option Z) (s : LocalStore) (e : exn) :
  1 < retries config ->
  on_upload_archive pconn 0 = Raises e ->
  e = PayloadTooLargeException
  \/ (if legacy_upload config then e = UnregisteredException
      else e = InvalidContentTypeException) ->
  exists w',
    upload sleep_time Json json_loads config pconn tar_file content_type
      collection_duration (fresh s)
    = (Raise (RuntimeError "Upload failed."), w')
    /\ attempts w' = 1%nat
    /\ sleeps w' = 0%nat
    /\ store w' = s.
Proof.
  intros Hn Hcall He.
  rewrite (upload_first_call_fatal config pconn tar_file content_type
             collection_duration s e) by (lia || assumption).
  eexists; split; [reflexivity |].
  repeat split.
Qed.

(** The first pass of either loop when the first call times out. *)
Lemma upload_first_call_timeout (config : InsightsConfig)
  (pconn : InsightsConnection) (tar_file content_type : string)
  (collection_duration : option Z) (s : LocalStore) :
  1 <= retries config ->
  on_upload_archive pconn 0 = Raises TimeoutException ->
  upload sleep_time Json json_loads config pconn tar_file content_type
    collection_duration (fresh s)
  = (Raise (AttributeError
              "'NoneType' object has no attribute 'status_code'"),
     mkWorld s
       [EvLog INFO "Uploading Insights data.";
        EvUploadArchive tar_file
          (if legacy_upload config then "" else content_type)
          collection_duration]).
Proof.
  intros Hn Hcall.
  unfold upload, _legacy_upload.
  rewrite (range_pos (retries config)) by lia.
  destruct (legacy_upload config);
    unfold bind at 1; unfold logger_info at 1, emit at 1; cbn beta iota;
    unfold bind at 1; rewrite for_each_stops.
  - rewrite legacy_upload_body_timeout; [reflexivity | exact Hcall].
  - rewrite legacy_upload_body_timeout; [cbn; congruence | exact Hcall].
  - rewrite upload_body_timeout; [reflexivity | exact Hcall].
  - rewrite upload_body_timeout; [cbn; congruence | exact Hcall].
Qed.

(** C10.  With [retries = 0] neither loop runs: [upload] returns [None]
    in both variants, having only logged that it starts; no call to
    the service, no sleep, and the local store is untouched. *)
Theorem upload_zero_retries (config : InsightsConfig)
  (pconn : InsightsConnection) (tar_file content_type : string)
  (collection_duration : option Z) (s : LocalStore) :
  retries config = 0 ->
  upload sleep_time Json json_loads config pconn tar_file content_type
    collection_duration (fresh s)
  = (Ret None, mkWorld s [EvLog INFO "Uploading Insights data."])
  /\ _legacy_upload sleep_time Json json_loads config pconn tar_file
       content_type collection_duration (fresh s)
     = (Ret None, mkWorld s [EvLog INFO "Uploading Insights data."])
  /\ attempts (mkWorld s [EvLog INFO "Uploading Insights data."]) = 0%nat
  /\ sleeps (mkWorld s [EvLog INFO "Uploading Insights data."]) = 0%nat.
Proof.
  intros Hn.
  unfold upload, _legacy_upload. rewrite Hn.
  destruct (legacy_upload config); repeat split.
Qed.

End UploadFacts.

Lemma upload_fatal_not_retried_witness :
  exists w',
    upload 180 string Some (example_config true 3)
      (always_raises UnregisteredException) "archive.tar.gz"
      "application/gzip" None (fresh empty_store)
    = (Raise (RuntimeError "Upload failed."), w')
    /\ attempts w' = 1%nat
    /\ sleeps w' = 0%nat
    /\ store w' = empty_store.
Proof.
  apply (upload_fatal_not_retried 180 string Some (example_config true 3)
           (always_raises UnregisteredException) "archive.tar.gz"
           "application/gzip" None empty_store UnregisteredException).
  - reflexivity.
  - reflexivity.
  - right. reflexivity.
Defined.

Lemma upload_zero_retries_witness :
  upload 180 string Some (example_config false 0) fails_twice
    "archive.tar.gz" "application/gzip" None (fresh registered_store)
  = (Ret None,
     mkWorld registered_store [EvLog INFO "Uploading Insights data."]).
Proof.
  apply (upload_zero_retries 180 string Some (example_config false 0)
           fails_twice "archive.tar.gz" "application/gzip" None
           registered_store).
  reflexivity.
Defined.

(** C1.  With [retries = 2] and a service whose every upload call times
    out, [upload] (in either variant) makes one attempt only, does not
    sleep, and raises [AttributeError]: after the timeout [upload] is
    [None], and the log line of the failed attempt reads
    [upload.status_code]. *)
Theorem upload_timeout_is_not_retried (legacy : bool) :
  exists w',
    upload 180 string Some (example_config legacy 2)
      (always_raises TimeoutException) "archive.tar.gz"
      "application/gzip" None (fresh empty_store)
    = (Raise (AttributeError
                "'NoneType' object has no attribute 'status_code'"), w')
    /\ attempts w' = 1%nat
    /\ sleeps w' = 0%nat.
Proof.
  rewrite upload_first_call_timeout by (reflexivity || (cbn; lia)).
  eexists; split; [reflexivity |]. split; reflexivity.
Qed.

(** C2.  With [retries = 3], no legacy protocol, and a service that
    answers status 500 twice and then status 200, [upload] returns
    normally after the first answer: one attempt, one sleep, and the
    last-upload marker written although the only answer received was
    status 500. *)
Theorem upload_records_success_after_failed_attempt :
  exists w',
    upload 180 string Some (example_config false 3) fails_twice
      "archive.tar.gz" "application/gzip" None (fresh empty_store)
    = (Ret None, w')
    /\ lastupload_file (store w') = true
    /\ attempts w' = 1%nat
    /\ sleeps w' = 1%nat.
Proof.
  eexists; split; [reflexivity |]. repeat split.
Qed.

(* ------------------------------------------------------------------ *)
(** ** Unregistration *)

(** C3 (as amended).  Without the legacy protocol and with the force
    flag, [handle_unregistration] writes the unregistered marker and
    deletes the cache files whatever [pconn.unregister()] returned, and
    returns what that call returned. *)
Theorem handle_unregistration_force (config : InsightsConfig)
  (pconn : InsightsConnection) (s : LocalStore) (unreg : bool) :
  legacy_upload config = false ->
  force config = true ->
  on_unregister pconn = Returns unreg ->
  exists w',
    handle_unregistration config pconn (fresh s) = (Ret unreg, w')
    /\ unregistered_file (store w') = true
    /\ cache_files (store w') = false.
Proof.
  intros Hlegacy Hforce Hunreg.
  unfold handle_unregistration. rewrite Hlegacy.
  unfold Conn.unregister, bind, emit, lift_outcome.
  cbn beta iota. rewrite Hunreg. unfold ret. cbn beta iota.
  rewrite Hforce, orb_true_r.
  eexists; split; [reflexivity |]. split; reflexivity.
Qed.

Lemma handle_unregistration_force_witness :
  exists w',
    handle_unregistration (force_config false)
      (service (Returns true) (Returns true)) (fresh registered_store)
    = (Ret true, w')
    /\ unregistered_file (store w') = true
    /\ cache_files (store w') = false.
Proof.
  apply (handle_unregistration_force (force_config false)
           (service (Returns true) (Returns true)) registered_store true);
    reflexivity.
Defined.

(** C3 as stated fails: with the force flag and a remote call that
    returned failure, the marker is written and the cache deleted, but
    the operation returns [False]. *)
Lemma handle_unregistration_force_reports_failure :
  legacy_upload (force_config false) = false
  /\ force (force_config false) = true
  /\ on_unregister (service (Returns true) (Returns false)) = Returns false
  /\ fst (handle_unregistration (force_config false)
            (service (Returns true) (Returns false))
            (fresh registered_store))
     = Ret false
  /\ fst (handle_unregistration (force_config false)
            (service (Returns true) (Returns false))
            (fresh registered_store))
     <> Ret true.
Proof.
  repeat split. cbn. discriminate.
Qed.

(** C5.  Legacy unregistration when the registration query raises
    [RuntimeError]: with the force flag the local cleanup is done
    (unregistered marker, scheduling removed, cache deleted) and [True]
    is returned without calling [unregister]; without it the error is
    raised again and the store is untouched. *)
Theorem legacy_unregistration_query_fails (config : InsightsConfig)
  (pconn : InsightsConnection) (s : LocalStore) (msg : string) :
  on_registration_check pconn = Raises (RuntimeError msg) ->
  exists r w',
    _legacy_handle_unregistration config pconn (fresh s) = (r, w')
    /\ count is_unregister w' = 0%nat
    /\ if force config
       then r = Ret true /\ cleaned_up (store w')
       else r = Raise (RuntimeError msg)
            /\ store w' = s
            /\ count is_store w' = 0%nat.
Proof.
  intros Hcheck.
  unfold _legacy_handle_unregistration, registration_check, try_except,
    bind, emit, lift_outcome.
  cbn beta iota. rewrite Hcheck. cbn beta iota.
  destruct (force config);
    do 2 eexists; (split; [reflexivity |]); repeat split.
Qed.

Lemma legacy_unregistration_query_fails_witness :
  exists r w',
    _legacy_handle_unregistration (force_config true)
      (service (Raises (RuntimeError "Connection refused")) (Returns true))
      (fresh registered_store)
    = (r, w')
    /\ count is_unregister w' = 0%nat
    /\ (r = Ret true /\ cleaned_up (store w')).
Proof.
  apply (legacy_unregistration_query_fails (force_config true)
           (service (Raises (RuntimeError "Connection refused"))
              (Returns true))
           registered_store "Connection refused").
  reflexivity.
Defined.

(** C7.  Legacy unregistration when the registration query answers.  If
    it reports registered and [unregister] returns failure, [False] is
    returned and the store is untouched; if it reports unregistered,
    [unregister] is not called, the local cleanup is done and [True] is
    returned. *)
Theorem legacy_unregistration_query_answers (config : InsightsConfig)
  (reg : outcome unit) (unreg : outcome bool)
  (up : nat -> outcome Response) (s : LocalStore) :
  (exists w',
     _legacy_handle_unregistration config
       (mkConnection (Returns true) reg (Returns false) up) (fresh s)
     = (Ret false, w')
     /\ store w' = s
     /\ count is_store w' = 0%nat)
  /\ (exists w',
        _legacy_handle_unregistration config
          (mkConnection (Returns false) reg unreg up) (fresh s)
        = (Ret true, w')
        /\ cleaned_up (store w')
        /\ count is_unregister w' = 0%nat).
Proof.
  split; eexists; (split; [reflexivity |]); repeat split.
Qed.

(* ------------------------------------------------------------------ *)
(** ** Registration *)

(** C6.  Legacy registration without forced re-registration and with
    explicit registration requested: when the registration query reports
    the host as registered, [True] is returned and [pconn.register()] is
    not called. *)
Theorem legacy_registration_already_registered (config : InsightsConfig)
  (pconn : InsightsConnection) (s : LocalStore) :
  reregister config = false ->
  register config = true ->
  on_registration_check pconn = Returns true ->
  exists w',
    _legacy_handle_registration config pconn (fresh s) = (Ret true, w')
    /\ count is_register w' = 0%nat.
Proof.
  intros Hre Hreg Hcheck.
  unfold _legacy_handle_registration, registration_check.
  rewrite Hre, Hreg.
  unfold bind, emit, lift_outcome, logger_debug, generate_machine_id,
    update_store, ret.
  cbn beta iota. rewrite Hcheck. cbn beta iota.
  eexists; split; reflexivity.
Qed.

Lemma legacy_registration_already_registered_witness :
  exists w',
    _legacy_handle_registration basic_config
      (service (Returns true) (Returns true)) (fresh registered_store)
    = (Ret true, w')
    /\ count is_register w' = 0%nat.
Proof.
  apply (legacy_registration_already_registered basic_config
           (service (Returns true) (Returns true)) registered_store);
    reflexivity.
Defined.

(** C8 (as amended).  Legacy registration with explicit registration
    requested, BASIC authentication and the username or the password
    missing: [pconn.register()] is never called and the registered marker
    is never written; the operation returns [False] when the
    registration query reports the host as not registered, [True] when
    it reports it as registered, and raises what the query raises. *)
Theorem legacy_registration_missing_credentials (config : InsightsConfig)
  (pconn : InsightsConnection) (s : LocalStore) :
  register config = true ->
  authmethod config = "BASIC" ->
  py_bool_str (username config) = false
  \/ py_bool_str (password config) = false ->
  exists r w',
    _legacy_handle_registration config pconn (fresh s) = (r, w')
    /\ count is_register w' = 0%nat
    /\ count is_write_registered w' = 0%nat
    /\ r = match on_registration_check pconn with
           | Returns true => Ret true
           | Returns false => Ret false
           | Raises e => Raise e
           end.
Proof.
  intros Hreg Hauth Hmissing.
  assert (Hcred : py_bool_str (username config)
                  && py_bool_str (password config) = false).
  { destruct Hmissing as [-> | ->];
      [reflexivity | apply andb_false_r]. }
  unfold _legacy_handle_registration, registration_check.
  rewrite Hreg, Hauth, Hcred, String.eqb_refl.
  unfold bind, emit, lift_outcome, logger_debug, logger_info,
    generate_machine_id, update_store, ret, raise.
  destruct (reregister config), (on_registration_check pconn) as [[|] | e];
    cbn; do 2 eexists; (split; [reflexivity |]); repeat split.
Qed.

Lemma legacy_registration_missing_credentials_witness :
  exists r w',
    _legacy_handle_registration basic_config
      (service (Returns false) (Returns true)) (fresh empty_store)
    = (r, w')
    /\ count is_register w' = 0%nat
    /\ count is_write_registered w' = 0%nat
    /\ r = Ret false.
Proof.
  apply (legacy_registration_missing_credentials basic_config
           (service (Returns false) (Returns true)) empty_store).
  - reflexivity.
  - reflexivity.
  - left. reflexivity.
Defined.

(** C8 as stated fails: with explicit registration, BASIC authentication
    and no username, a host that the registration query reports as
    registered gets [True] ("proceed"), not [False]. *)
Lemma legacy_registration_missing_credentials_proceeds :
  register basic_config = true
  /\ authmethod basic_config = "BASIC"
  /\ username basic_config = None
  /\ fst (_legacy_handle_registration basic_config
            (service (Returns true) (Returns true)) (fresh empty_store))
     = Ret true
  /\ fst (_legacy_handle_registration basic_config
            (service (Returns true) (Returns true)) (fresh empty_store))
     <> Ret false.
Proof.
  repeat split. cbn. discriminate.
Qed.

(* ------------------------------------------------------------------ *)
(** ** The two markers exclude each other *)

Create HintDb exclusive.

Lemma keeps_ret {A} (a : A) : keeps_exclusive (ret a).
Proof. intros w Hw. exact Hw. Qed.

Lemma keeps_raise {A} (e : exn) : keeps_exclusive (@raise A e).
Proof. intros w Hw. exact Hw. Qed.

Lemma keeps_bind {A B} (m : M A) (k : A -> M B) :
  keeps_exclusive m ->
  (forall a, keeps_exclusive (k a)) ->
  keeps_exclusive (bind m k).
Proof.
  intros Hm Hk w Hw. unfold bind.
  specialize (Hm w Hw).
  destruct (m w) as [[a | e] w1]; cbn [snd] in *.
  - apply Hk, Hm.
  - exact Hm.
Qed.

Lemma keeps_try_except {A} (m : M A) (h : exn -> M A) :
  keeps_exclusive m ->
  (forall e, keeps_exclusive (h e)) ->
  keeps_exclusive (try_except m h).
Proof.
  intros Hm Hh w Hw. unfold try_except.
  specialize (Hm w Hw).
  destruct (m w) as [[a | e] w1]; cbn [snd] in *.
  - exact Hm.
  - apply Hh, Hm.
Qed.

Lemma keeps_emit (e : event) :
  exclusive_after e -> keeps_exclusive (emit e).
Proof.
  intros He w Hw. unfold emit. cbn [snd trace].
  apply Forall_app. split; [exact Hw | repeat constructor; exact He].
Qed.

Lemma keeps_update_store (op : store_op) (f : LocalStore -> LocalStore) :
  (forall s, exclusive_after (EvStore op (f s))) ->
  keeps_exclusive (update_store op f).
Proof.
  intros Hop w Hw. unfold update_store. cbn [snd trace].
  apply Forall_app. split; [exact Hw | repeat constructor; apply Hop].
Qed.

Lemma keeps_lift_outcome {A} (o : outcome A) :
  keeps_exclusive (lift_outcome o).
Proof. destruct o; [apply keeps_ret | apply keeps_raise]. Qed.

Lemma keeps_for_each {A V R} (xs : list A)
  (body : A -> V -> M (flow V R)) :
  (forall x v, keeps_exclusive (body x v)) ->
  forall v, keeps_exclusive (for_each xs body v).
Proof.
  intros Hbody. induction xs as [| x xs IH]; intros v.
  - apply keeps_ret.
  - intros w Hw. cbn [for_each].
    specialize (Hbody x v w Hw).
    destruct (body x v w) as [[[v' | v' | r] | e] w1]; cbn [snd] in *;
      try exact Hbody.
    apply IH, Hbody.
Qed.

Lemma keeps_upload_archive (pconn : InsightsConnection)
  (tar_file content_type : string) (collection_duration : option Z) :
  keeps_exclusive
    (Conn.upload_archive pconn tar_file content_type collection_duration).
Proof.
  intros w Hw. unfold Conn.upload_archive.
  apply keeps_bind; [apply keeps_emit; exact I | | exact Hw].
  intros _. apply keeps_lift_outcome.
Qed.

#[local] Hint Resolve keeps_ret keeps_raise keeps_lift_outcome
  keeps_upload_archive : exclusive.
#[local] Hint Extern 1 (keeps_exclusive (emit _)) =>
  apply keeps_emit; exact I : exclusive.
#[local] Hint Extern 1 (keeps_exclusive (update_store _ _)) =>
  apply keeps_update_store; intros ?; cbn; auto : exclusive.
#[local] Hint Unfold logger_debug logger_info logger_error time_sleep
  write_registered_file write_unregistered_file delete_registered_file
  delete_unregistered_file delete_cache_files write_last_upload_results
  generate_machine_id remove_scheduling : exclusive.

(** Walks through a computation along its binds, handlers and tests. *)
Ltac keep :=
  repeat match goal with
    | |- keeps_exclusive (bind _ _) => apply keeps_bind; [| intros ?]
    | |- keeps_exclusive (try_except _ _) =>
        apply keeps_try_except; [| intros ?]
    | |- keeps_exclusive (for_each _ _ _) =>
        apply keeps_for_each; intros ? ?
    | |- keeps_exclusive (if ?b then _ else _) => destruct b
    | |- keeps_exclusive (match ?x with _ => _ end) => destruct x
    | |- keeps_exclusive _ => solve [autounfold with exclusive;
                                     auto with exclusive]
    end.

Lemma keeps_registration_check (pconn : InsightsConnection) :
  keeps_exclusive (registration_check pconn).
Proof. unfold registration_check. keep. Qed.

Lemma keeps_register (pconn : InsightsConnection) :
  keeps_exclusive (Conn.register pconn).
Proof. unfold Conn.register. keep. Qed.

Lemma keeps_unregister (pconn : InsightsConnection) :
  keeps_exclusive (Conn.unregister pconn).
Proof. unfold Conn.unregister. keep. Qed.

Lemma keeps_write_to_disk (f : constants.file) (delete : bool) :
  keeps_exclusive (write_to_disk f delete).
Proof. unfold write_to_disk. keep. Qed.

Lemma keeps_getattr_status_code (upload : option Response) :
  keeps_exclusive (getattr_status_code upload).
Proof. unfold getattr_status_code. keep. Qed.

Lemma keeps_getattr_text (upload : option Response) :
  keeps_exclusive (getattr_text upload).
Proof. unfold getattr_text. keep. Qed.

#[local] Hint Resolve keeps_registration_check keeps_register
  keeps_unregister keeps_write_to_disk keeps_getattr_status_code
  keeps_getattr_text : exclusive.

Lemma keeps_cleanup_local_files (config : InsightsConfig) :
  keeps_exclusive (__cleanup_local_files config).
Proof. unfold __cleanup_local_files. keep. Qed.

#[local] Hint Resolve keeps_cleanup_local_files : exclusive.

Lemma keeps_handle_registration (config : InsightsConfig)
  (pconn : InsightsConnection) :
  keeps_exclusive (handle_registration config pconn).
Proof.
  unfold handle_registration, _legacy_handle_registration. keep.
Qed.

Lemma keeps_handle_unregistration (config : InsightsConfig)
  (pconn : InsightsConnection) :
  keeps_exclusive (handle_unregistration config pconn).
Proof.
  unfold handle_unregistration, _legacy_handle_unregistration. keep.
Qed.

Lemma keeps_upload (sleep_time : Z) (Json : Type)
  (json_loads : string -> option Json) (config : InsightsConfig)
  (pconn : InsightsConnection) (tar_file content_type : string)
  (collection_duration : option Z) :
  keeps_exclusive
    (upload sleep_time Json json_loads config pconn tar_file content_type
       collection_duration).
Proof.
  unfold upload, _legacy_upload, upload_body, _legacy_upload_body,
    py_json_loads.
  keep.
Qed.

(** C9.  In every run of [handle_registration], [handle_unregistration]
    and [upload], in both variants, the store right after each write of
    the registered marker has no unregistered marker, and the store
    right after each write of the unregistered marker has no registered
    marker. *)
Theorem markers_mutually_exclusive (sleep_time : Z) (Json : Type)
  (json_loads : string -> option Json) (config : InsightsConfig)
  (pconn : InsightsConnection) (tar_file content_type : string)
  (collection_duration : option Z) (s : LocalStore) :
  exclusive_run (handle_registration config pconn (fresh s))
  /\ exclusive_run (handle_unregistration config pconn (fresh s))
  /\ exclusive_run
       (upload sleep_time Json json_loads config pconn tar_file
          content_type collection_duration (fresh s)).
Proof.
  unfold exclusive_run. repeat split.
  - apply keeps_handle_registration. constructor.
  - apply keeps_handle_unregistration. constructor.
  - apply keeps_upload. constructor.
Qed.

(* ------------------------------------------------------------------ *)
(** ** Registration: further properties *)

(** Unfolds a registration or unregistration run down to its calls, so
    that the flags and the answers of the service can be given before
    the run is evaluated. *)
Ltac unfold_run :=
  unfold handle_registration, handle_unregistration,
    _legacy_handle_registration, _legacy_handle_unregistration,
    registration_check, Conn.register, Conn.unregister;
  repeat match goal with
    | |- context [((authmethod ?c =? "BASIC")%string
                   && negb (py_bool_str (username ?c)
                            && py_bool_str (password ?c)))%bool] =>
        change ((authmethod c =? "BASIC")%string
                && negb (py_bool_str (username c)
                         && py_bool_str (password c)))%bool
          with (credentials_missing c)
    end.

(** X1.  The value returned by legacy registration, when the query
    answers [check] and [pconn.register()] does not raise: [True] exactly
    when the host is registered already, or registration was requested
    and the credentials test passes. *)
Theorem legacy_registration_returns (config : InsightsConfig)
  (pconn : InsightsConnection) (s : LocalStore) (check : bool) :
  on_registration_check pconn = Returns check ->
  on_register pconn = Returns tt ->
  fst (_legacy_handle_registration config pconn (fresh s))
  = Ret (check || (register config && negb (credentials_missing config))).
Proof.
  intros Hcheck Hreg. unfold_run. rewrite Hcheck, Hreg.
  destruct (reregister config), check, (register config),
    (credentials_missing config);
    vm_compute; reflexivity.
Qed.

Lemma legacy_registration_returns_witness :
  fst (_legacy_handle_registration basic_config
         (service (Returns false) (Returns true)) (fresh empty_store))
  = Ret false.
Proof.
  apply (legacy_registration_returns basic_config
           (service (Returns false) (Returns true)) empty_store false);
    reflexivity.
Defined.

(** X2.  Legacy registration of a host that the query reports as not
    registered, with registration requested and the credentials test
    passed: [pconn.register()] is called once, the registered marker is
    written once and is present at the end, and [True] is returned. *)
Theorem legacy_registration_registers (config : InsightsConfig)
  (pconn : InsightsConnection) (s : LocalStore) :
  on_registration_check pconn = Returns false ->
  register config = true ->
  credentials_missing config = false ->
  on_register pconn = Returns tt ->
  exists w',
    _legacy_handle_registration config pconn (fresh s) = (Ret true, w')
    /\ registered_file (store w') = true
    /\ count is_register w' = 1%nat
    /\ count is_write_registered w' = 1%nat.
Proof.
  intros Hcheck Hflag Hcred Hreg.
  unfold_run. rewrite Hcheck, Hflag, Hcred, Hreg.
  destruct (reregister config); vm_compute;
    eexists; (split; [reflexivity |]); repeat split.
Qed.

Lemma legacy_registration_registers_witness :
  exists w',
    _legacy_handle_registration
      (mkConfig true false true false "BASIC" (Some "admin")
         (Some "secret") 1 None None "insights-client.log")
      (service (Returns false) (Returns true)) (fresh empty_store)
    = (Ret true, w')
    /\ registered_file (store w') = true
    /\ count is_register w' = 1%nat
    /\ count is_write_registered w' = 1%nat.
Proof.
  apply (legacy_registration_registers
           (mkConfig true false true false "BASIC" (Some "admin")
              (Some "secret") 1 None None "insights-client.log")
           (service (Returns false) (Returns true)) empty_store);
    reflexivity.
Defined.

(** X3.  When [pconn.register()] raises, legacy registration raises the
    same exception and the registered marker is not written: the two
    markers are as the re-registration step (if any) left them. *)
Theorem legacy_registration_register_raises (config : InsightsConfig)
  (pconn : InsightsConnection) (s : LocalStore) (e : exn) :
  on_registration_check pconn = Returns false ->
  register config = true ->
  credentials_missing config = false ->
  on_register pconn = Raises e ->
  exists w',
    _legacy_handle_registration config pconn (fresh s) = (Raise e, w')
    /\ count is_write_registered w' = 0%nat
    /\ markers (store w')
       = if reregister config then (false, false) else markers s.
Proof.
  intros Hcheck Hflag Hcred Hreg.
  unfold_run. rewrite Hcheck, Hflag, Hcred, Hreg.
  destruct (reregister config); vm_compute;
    eexists; (split; [reflexivity |]); repeat split.
Qed.

Lemma legacy_registration_register_raises_witness :
  exists w',
    _legacy_handle_registration
      (mkConfig true false true false "CERT" None None 1 None None
         "insights-client.log")
      (mkConnection (Returns false) (Raises TimeoutException)
         (Returns true) (fun _ => Returns response_200))
      (fresh empty_store)
    = (Raise TimeoutException, w')
    /\ count is_write_registered w' = 0%nat
    /\ markers (store w') = markers empty_store.
Proof.
  apply (legacy_registration_register_raises
           (mkConfig true false true false "CERT" None None 1 None None
              "insights-client.log")
           (mkConnection (Returns false) (Raises TimeoutException)
              (Returns true) (fun _ => Returns response_200))
           empty_store TimeoutException);
    reflexivity.
Defined.



(** X5.  In every run of [handle_registration] the registration query is
    made at most once, [pconn.register()] is called at most once and only
    when registration was requested, and there is no call to
    [pconn.unregister()], no upload attempt and no sleep. *)
Theorem handle_registration_calls (config : InsightsConfig)
  (pconn : InsightsConnection) (s : LocalStore) :
  let w' := snd (handle_registration config pconn (fresh s)) in
  (count is_registration_check w'
   = if legacy_upload config then 1 else 0)%nat
  /\ (count is_register w' <= if register config then 1 else 0)%nat
  /\ count is_unregister w' = 0%nat
  /\ attempts w' = 0%nat
  /\ sleeps w' = 0%nat.
Proof.
  unfold_run.
  destruct (legacy_upload config), (reregister config),
    (on_registration_check pconn) as [[|] | e], (register config),
    (credentials_missing config), (on_register pconn) as [[] | e'];
    vm_compute; repeat split; lia.
Qed.

(* ------------------------------------------------------------------ *)
(** ** Unregistration: further properties *)

(** X6.  Whenever [handle_unregistration] returns [True], in either
    variant, the unregistered marker is present and the cache files are
    gone, and [pconn.unregister()] was called at most once. *)
Theorem unregistration_success_is_cleaned (config : InsightsConfig)
  (pconn : InsightsConnection) (s : LocalStore) (w' : World) :
  handle_unregistration config pconn (fresh s) = (Ret true, w') ->
  unregistered_file (store w') = true
  /\ cache_files (store w') = false
  /\ (count is_unregister w' <= 1)%nat.
Proof.
  unfold_run.
  destruct (legacy_upload config),
    (on_registration_check pconn) as [[|] | []],
    (on_unregister pconn) as [[|] | e'], (force config);
    vm_compute; intros H; inversion H; subst; repeat split; lia.
Qed.

Lemma unregistration_success_is_cleaned_witness :
  unregistered_file
    (store (snd (handle_unregistration (force_config true)
                   (service (Returns true) (Returns true))
                   (fresh registered_store)))) = true
  /\ cache_files
       (store (snd (handle_unregistration (force_config true)
                      (service (Returns true) (Returns true))
                      (fresh registered_store)))) = false
  /\ (count is_unregister
        (snd (handle_unregistration (force_config true)
                (service (Returns true) (Returns true))
                (fresh registered_store))) <= 1)%nat.
Proof.
  apply (unregistration_success_is_cleaned (force_config true)
           (service (Returns true) (Returns true)) registered_store).
  reflexivity.
Defined.

(** X7.  Legacy unregistration either returns [True] or leaves the local
    store exactly as it was, whatever the service does and whatever the
    force flag. *)
Theorem legacy_unregistration_all_or_nothing (config : InsightsConfig)
  (pconn : InsightsConnection) (s : LocalStore) :
  fst (_legacy_handle_unregistration config pconn (fresh s)) = Ret true
  \/ (store (snd (_legacy_handle_unregistration config pconn (fresh s)))
      = s
      /\ count is_store
           (snd (_legacy_handle_unregistration config pconn (fresh s)))
         = 0%nat).
Proof.
  unfold_run.
  destruct (on_registration_check pconn) as [[|] | []],
    (on_unregister pconn) as [[|] | e'], (force config);
    vm_compute; auto.
Qed.



(** X9.  When the registration query answers, legacy unregistration does
    not look at the force flag: two configurations that differ in it
    only give the same run. *)
Theorem legacy_unregistration_force_unused (pconn : InsightsConnection)
  (w : World) (check : bool) (legacy rereg reg force1 force2 : bool)
  (auth : string) (user pass : option string) (n : Z)
  (account name : option string) (log : string) :
  on_registration_check pconn = Returns check ->
  _legacy_handle_unregistration
    (mkConfig legacy rereg reg force1 auth user pass n account name log)
    pconn w
  = _legacy_handle_unregistration
      (mkConfig legacy rereg reg force2 auth user pass n account name log)
      pconn w.
Proof.
  intros Hcheck.
  unfold _legacy_handle_unregistration, registration_check, try_except,
    bind, emit, lift_outcome.
  cbn beta iota. rewrite Hcheck. reflexivity.
Qed.

Lemma legacy_unregistration_force_unused_witness :
  _legacy_handle_unregistration
    (mkConfig true false false true "CERT" None None 1 None None "log")
    (service (Returns true) (Returns false)) (fresh registered_store)
  = _legacy_handle_unregistration
      (mkConfig true false false false "CERT" None None 1 None None "log")
      (service (Returns true) (Returns false)) (fresh registered_store).
Proof.
  apply (legacy_unregistration_force_unused
           (service (Returns true) (Returns false))
           (fresh registered_store) true).
  reflexivity.
Defined.

(** X10.  When [pconn.unregister()] raises, [handle_unregistration]
    raises the same exception in either variant and under either value of
    the force flag, and the local store is untouched. *)
Theorem unregistration_remote_raises (config : InsightsConfig)
  (pconn : InsightsConnection) (s : LocalStore) (e : exn) :
  on_registration_check pconn = Returns true ->
  on_unregister pconn = Raises e ->
  exists w',
    handle_unregistration config pconn (fresh s) = (Raise e, w')
    /\ store w' = s
    /\ count is_store w' = 0%nat.
Proof.
  intros Hcheck Hunreg. unfold_run.
  destruct (legacy_upload config); rewrite ?Hcheck, Hunreg;
    destruct (force config); vm_compute;
    eexists; (split; [reflexivity |]); split; reflexivity.
Qed.

Lemma unregistration_remote_raises_witness :
  exists w',
    handle_unregistration (force_config false)
      (service (Returns true) (Raises TimeoutException))
      (fresh registered_store)
    = (Raise TimeoutException, w')
    /\ store w' = registered_store
    /\ count is_store w' = 0%nat.
Proof.
  apply (unregistration_remote_raises (force_config false)
           (service (Returns true) (Raises TimeoutException))
           registered_store TimeoutException);
    reflexivity.
Defined.

(** X11.  Without the legacy protocol and without the force flag, a
    failure returned by [pconn.unregister()] leaves the local store
    untouched and [False] is returned. *)
Theorem handle_unregistration_failure (config : InsightsConfig)
  (pconn : InsightsConnection) (s : LocalStore) :
  legacy_upload config = false ->
  force config = false ->
  on_unregister pconn = Returns false ->
  handle_unregistration config pconn (fresh s)
  = (Ret false, mkWorld s [EvUnregister]).
Proof.
  intros Hlegacy Hforce Hunreg. unfold_run.
  rewrite Hlegacy, Hunreg, Hforce. reflexivity.
Qed.

Lemma handle_unregistration_failure_witness :
  handle_unregistration (example_config false 1)
    (service (Returns true) (Returns false)) (fresh registered_store)
  = (Ret false, mkWorld registered_store [EvUnregister]).
Proof.
  apply (handle_unregistration_failure (example_config false 1)
           (service (Returns true) (Returns false)) registered_store);
    reflexivity.
Defined.

(** X12.  Without the legacy protocol, [handle_unregistration] calls
    [pconn.unregister()] exactly once, never makes the registration
    query, and never changes the scheduling nor the machine-identity
    record. *)
Theorem handle_unregistration_modern_frame (config : InsightsConfig)
  (pconn : InsightsConnection) (s : LocalStore) :
  legacy_upload config = false ->
  let w' := snd (handle_unregistration config pconn (fresh s)) in
  count is_unregister w' = 1%nat
  /\ count is_registration_check w' = 0%nat
  /\ scheduling (store w') = scheduling s
  /\ machine_id_file (store w') = machine_id_file s.
Proof.
  intros Hlegacy. unfold_run. rewrite Hlegacy.
  destruct (on_unregister pconn) as [[|] | e], (force config);
    vm_compute; repeat split.
Qed.

Lemma handle_unregistration_modern_frame_witness :
  count is_unregister
    (snd (handle_unregistration (force_config false)
            (service (Returns true) (Returns false))
            (fresh registered_store))) = 1%nat.
Proof.
  apply (handle_unregistration_modern_frame (force_config false)
           (service (Returns true) (Returns false)) registered_store).
  reflexivity.
Defined.

(* ------------------------------------------------------------------ *)
(** ** Upload: further properties *)

Section UploadRuns.

Variable sleep_time : Z.
Variable Json : Type.
Variable json_loads : string -> option Json.
Variables (config : InsightsConfig) (pconn : InsightsConnection).
Variables (tar_file content_type : string).
Variable collection_duration : option Z.

(** Unfolds the first pass down to the call of the service. *)
Ltac pass_unfold :=
  unfold started, upload_body, _legacy_upload_body, py_json_loads,
    getattr_status_code, getattr_text, write_last_upload_results,
    write_to_disk, Conn.upload_archive, logger_info, logger_error,
    time_sleep, try_except, bind, emit, update_store, lift_outcome,
    py_bool_upload, ret, raise;
  cbn beta iota;
  change (attempts (mkWorld _ [EvLog INFO "Uploading Insights data."]))
    with 0%nat.

(** Decides a pass, once the answer [first] of the service is known, by
    cases on the tests of the body. *)
Ltac pass_tests first :=
  cbn beta iota;
  try destruct (response_ok first) eqn:Hok;
  try destruct (0 + 1 =? retries config) eqn:Hlast;
  try destruct (json_loads (text first)) as [parsed' |] eqn:Hjson;
  try destruct (py_bool_str (account_number config));
  try destruct (register config);
  cbn beta iota zeta.

(** Decides a pass by cases on what the service does and on the tests
    of the body. *)
Ltac pass_cases :=
  pass_unfold;
  let first := fresh "first" in
  destruct (on_upload_archive pconn 0) as [first | []];
  [pass_tests first | cbn beta iota zeta ..].

Lemma upload_body_stops (tries : Z) (w : World) (v' : unit) :
  fst (upload_body sleep_time Json config pconn tar_file content_type
         collection_duration tries tt w) <> Ret (Next v').
Proof.
  unfold upload_body, getattr_status_code, write_to_disk,
    Conn.upload_archive, logger_info, logger_error, time_sleep,
    try_except, bind, emit, update_store, lift_outcome, py_bool_upload,
    ret, raise.
  cbn beta iota.
  destruct (on_upload_archive pconn (attempts w)) as [r | []];
    cbn beta iota;
    try destruct (response_ok r);
    try destruct (tries + 1 =? retries config);
    try destruct (register config);
    cbn; discriminate.
Qed.

Lemma legacy_upload_body_stops (tries : Z) (w : World)
  (v v' : option Json) :
  fst (_legacy_upload_body sleep_time Json json_loads config pconn
         tar_file collection_duration tries v w) <> Ret (Next v').
Proof.
  unfold _legacy_upload_body, py_json_loads, getattr_status_code,
    getattr_text, write_last_upload_results, write_to_disk,
    Conn.upload_archive, logger_info, logger_error, time_sleep,
    try_except, bind, emit, update_store, lift_outcome, py_bool_upload,
    ret, raise.
  cbn beta iota.
  destruct (on_upload_archive pconn (attempts w)) as [r | []];
    cbn beta iota;
    try destruct (response_ok r);
    try destruct (tries + 1 =? retries config);
    try destruct (json_loads (text r));
    try destruct (py_bool_str (account_number config));
    try destruct (register config);
    cbn; discriminate.
Qed.

(** With at least one try, a run of [upload] is its first pass. *)
Lemma upload_is_first_pass (s : LocalStore) :
  1 <= retries config ->
  upload sleep_time Json json_loads config pconn tar_file content_type
    collection_duration (fresh s)
  = if legacy_upload config then
      match _legacy_upload_body sleep_time Json json_loads config pconn
              tar_file collection_duration 0 None (started s) with
      | (Ret (Next v), w') | (Ret (Break v), w') => (Ret v, w')
      | (Ret (Return r), w') => (Ret r, w')
      | (Raise e, w') => (Raise e, w')
      end
    else
      match upload_body sleep_time Json config pconn tar_file
              content_type collection_duration 0 tt (started s) with
      | (Ret (Return r), w') => (Ret r, w')
      | (Ret _, w') => (Ret None, w')
      | (Raise e, w') => (Raise e, w')
      end.
Proof.
  intros Hn. unfold upload, _legacy_upload.
  rewrite (range_pos (retries config)) by lia.
  destruct (legacy_upload config);
    unfold bind at 1; unfold logger_info at 1, emit at 1; cbn beta iota;
    unfold bind at 1; rewrite for_each_stops.
  - fold (started s).
    destruct (_legacy_upload_body _ _ _ _ _ _ _ _ _ _)
      as [[[v | v | r] | e] w']; reflexivity.
  - intros v'. apply legacy_upload_body_stops.
  - fold (started s).
    destruct (upload_body _ _ _ _ _ _ _ _ _ _)
      as [[[v | v | r] | e] w']; reflexivity.
  - intros v'. apply upload_body_stops.
Qed.

Lemma upload_without_tries (s : LocalStore) :
  retries config <= 0 ->
  upload sleep_time Json json_loads config pconn tar_file content_type
    collection_duration (fresh s)
  = (Ret None, started s).
Proof.
  intros Hn. unfold upload, _legacy_upload.
  rewrite (range_nonpos (retries config)) by lia.
  destruct (legacy_upload config); reflexivity.
Qed.

(** X13.  No run of [upload], in either variant and whatever the retry
    count and the service, makes more than one call to
    [upload_archive], and it sleeps only after a call. *)
Theorem upload_at_most_one_attempt (s : LocalStore) :
  let w' := snd (upload sleep_time Json json_loads config pconn tar_file
                   content_type collection_duration (fresh s)) in
  (attempts w' <= 1)%nat /\ (sleeps w' <= attempts w')%nat.
Proof.
  destruct (Z.le_gt_cases 1 (retries config)) as [Hn | Hn].
  - rewrite upload_is_first_pass by exact Hn.
    destruct (legacy_upload config); pass_cases; cbn; lia.
  - rewrite upload_without_tries by lia. cbn. lia.
Qed.

(** X14.  When [upload] raises, in either variant, the local store is
    exactly as it was before the call. *)
Theorem upload_failure_keeps_store (s : LocalStore) (e : exn)
  (w' : World) :
  upload sleep_time Json json_loads config pconn tar_file content_type
    collection_duration (fresh s) = (Raise e, w') ->
  store w' = s /\ count is_store w' = 0%nat.
Proof.
  destruct (Z.le_gt_cases 1 (retries config)) as [Hn | Hn].
  - rewrite upload_is_first_pass by exact Hn.
    destruct (legacy_upload config); pass_cases;
      intros H; inversion H; subst; split; reflexivity.
  - rewrite upload_without_tries by lia. discriminate.
Qed.

(** X15.  No run of [upload] touches the markers, the machine-identity
    record, the cache files or the scheduling, and none calls
    [pconn.register()], [pconn.unregister()] or the registration query;
    without the legacy protocol the last-upload record is left alone
    too. *)
Theorem upload_frame (s : LocalStore) :
  let w' := snd (upload sleep_time Json json_loads config pconn tar_file
                   content_type collection_duration (fresh s)) in
  registration_state (store w') = registration_state s
  /\ (if legacy_upload config then True
      else last_upload_results_file (store w')
           = last_upload_results_file s)
  /\ count is_register w' = 0%nat
  /\ count is_unregister w' = 0%nat
  /\ count is_registration_check w' = 0%nat.
Proof.
  destruct (Z.le_gt_cases 1 (retries config)) as [Hn | Hn].
  - rewrite upload_is_first_pass by exact Hn.
    destruct (legacy_upload config); pass_cases; cbn; repeat split.
  - rewrite upload_without_tries by lia.
    destruct (legacy_upload config); cbn; repeat split.
Qed.

(** X16.  Without the legacy protocol, when the first call to
    [upload_archive] returns a response that is not an error status,
    [upload] returns [None] after that one call, without sleeping; the
    last-upload marker is written and nothing else in the store
    changes. *)
Theorem upload_first_response_ok (s : LocalStore) (r : Response) :
  1 <= retries config ->
  legacy_upload config = false ->
  on_upload_archive pconn 0 = Returns r ->
  response_ok r = true ->
  exists w',
    upload sleep_time Json json_loads config pconn tar_file content_type
      collection_duration (fresh s) = (Ret None, w')
    /\ store w' = set_lastupload true s
    /\ attempts w' = 1%nat
    /\ sleeps w' = 0%nat.
Proof.
  intros Hn Hlegacy Hcall Hr.
  rewrite upload_is_first_pass by exact Hn. rewrite Hlegacy.
  pass_unfold. rewrite Hcall. pass_tests r; try congruence;
    eexists; (split; [reflexivity |]); repeat split.
Qed.

(** X17.  Under the legacy protocol, when the first call returns a
    response that is not an error status and whose text parses as JSON,
    [upload] returns the parsed value after that one call; the text is
    stored as the last-upload record and the last-upload marker is
    written. *)
Theorem legacy_upload_first_response_ok (s : LocalStore) (r : Response)
  (parsed : Json) :
  1 <= retries config ->
  legacy_upload config = true ->
  on_upload_archive pconn 0 = Returns r ->
  response_ok r = true ->
  json_loads (text r) = Some parsed ->
  exists w',
    upload sleep_time Json json_loads config pconn tar_file content_type
      collection_duration (fresh s) = (Ret (Some parsed), w')
    /\ store w'
       = set_lastupload true (set_last_upload_results (Some (text r)) s)
    /\ attempts w' = 1%nat
    /\ sleeps w' = 0%nat.
Proof.
  intros Hn Hlegacy Hcall Hr Hparse.
  rewrite upload_is_first_pass by exact Hn. rewrite Hlegacy.
  pass_unfold. rewrite Hcall, Hr, Hparse. cbn beta iota.
  destruct (py_bool_str (account_number config)), (register config);
    eexists; (split; [reflexivity |]); repeat split.
Qed.


(** X19.  With [retries = 1], a first response with an error status
    makes [upload] raise [RuntimeError('Upload failed.')] in either
    variant, after one call and no sleep, with the store untouched. *)
Theorem upload_single_try_fails (s : LocalStore) (r : Response) :
  retries config = 1 ->
  on_upload_archive pconn 0 = Returns r ->
  response_ok r = false ->
  exists w',
    upload sleep_time Json json_loads config pconn tar_file content_type
      collection_duration (fresh s)
    = (Raise (RuntimeError "Upload failed."), w')
    /\ store w' = s
    /\ attempts w' = 1%nat
    /\ sleeps w' = 0%nat.
Proof.
  intros Hn Hcall Hr.
  rewrite upload_is_first_pass by lia.
  assert (Hlast : (0 + 1 =? retries config) = true)
    by (apply Z.eqb_eq; lia).
  destruct (legacy_upload config); pass_unfold;
    rewrite Hcall, Hr, Hlast; cbn beta iota;
    eexists; (split; [reflexivity |]); repeat split.
Qed.

(** X20.  An exception of [upload_archive] that the variant at hand does
    not name (anything but Timeout, PayloadTooLarge, and Unregistered
    under the legacy protocol or InvalidContentType without it) escapes
    from [upload] as it is, after one call, with the store untouched. *)
Theorem upload_other_exception (s : LocalStore) (e : exn) :
  1 <= retries config ->
  on_upload_archive pconn 0 = Raises e ->
  e <> TimeoutException ->
  e <> PayloadTooLargeException ->
  (if legacy_upload config then e <> UnregisteredException
   else e <> InvalidContentTypeException) ->
  exists w',
    upload sleep_time Json json_loads config pconn tar_file content_type
      collection_duration (fresh s) = (Raise e, w')
    /\ store w' = s
    /\ attempts w' = 1%nat
    /\ sleeps w' = 0%nat.
Proof.
  intros Hn Hcall Ht Hp Hv.
  rewrite upload_is_first_pass by exact Hn.
  destruct (legacy_upload config); pass_unfold; rewrite Hcall;
    destruct e; try congruence; cbn beta iota;
    eexists; (split; [reflexivity |]); repeat split.
Qed.

End UploadRuns.

Lemma upload_failure_keeps_store_witness :
  store (snd (upload 180 (list string) loads_empty_object
                (example_config false 1) fails_twice "archive.tar.gz"
                "application/gzip" None (fresh registered_store)))
  = registered_store
  /\ count is_store
       (snd (upload 180 (list string) loads_empty_object
               (example_config false 1) fails_twice "archive.tar.gz"
               "application/gzip" None (fresh registered_store)))
     = 0%nat.
Proof.
  apply (upload_failure_keeps_store 180 (list string) loads_empty_object
           (example_config false 1) fails_twice "archive.tar.gz"
           "application/gzip" None registered_store
           (RuntimeError "Upload failed.")).
  reflexivity.
Defined.

Lemma upload_first_response_ok_witness :
  exists w',
    upload 180 (list string) loads_empty_object (example_config false 3)
      (always_returns response_200) "archive.tar.gz" "application/gzip"
      None (fresh empty_store) = (Ret None, w')
    /\ store w' = set_lastupload true empty_store
    /\ attempts w' = 1%nat
    /\ sleeps w' = 0%nat.
Proof.
  apply (upload_first_response_ok 180 (list string) loads_empty_object
           (example_config false 3) (always_returns response_200)
           "archive.tar.gz" "application/gzip" None empty_store
           response_200);
    reflexivity || discriminate.
Defined.

Lemma legacy_upload_first_response_ok_witness :
  exists w',
    upload 180 (list string) loads_empty_object (example_config true 3)
      (always_returns response_200) "archive.tar.gz" "application/gzip"
      None (fresh empty_store) = (Ret (Some []), w')
    /\ store w'
       = set_lastupload true
           (set_last_upload_results (Some "{}") empty_store)
    /\ attempts w' = 1%nat
    /\ sleeps w' = 0%nat.
Proof.
  apply (legacy_upload_first_response_ok 180 (list string)
           loads_empty_object (example_config true 3)
           (always_returns response_200) "archive.tar.gz"
           "application/gzip" None empty_store response_200 []);
    reflexivity || discriminate.
Defined.


Lemma upload_single_try_fails_witness :
  exists w',
    upload 180 (list string) loads_empty_object (example_config true 1)
      fails_twice "archive.tar.gz" "application/gzip" None
      (fresh empty_store)
    = (Raise (RuntimeError "Upload failed."), w')
    /\ store w' = empty_store
    /\ attempts w' = 1%nat
    /\ sleeps w' = 0%nat.
Proof.
  apply (upload_single_try_fails 180 (list string) loads_empty_object
           (example_config true 1) fails_twice "archive.tar.gz"
           "application/gzip" None empty_store response_500);
    reflexivity.
Defined.

Lemma upload_other_exception_witness :
  exists w',
    upload 180 (list string) loads_empty_object (example_config false 3)
      (always_raises UnregisteredException) "archive.tar.gz"
      "application/gzip" None (fresh empty_store)
    = (Raise UnregisteredException, w')
    /\ store w' = empty_store
    /\ attempts w' = 1%nat
    /\ sleeps w' = 0%nat.
Proof.
  apply (upload_other_exception 180 (list string) loads_empty_object
           (example_config false 3) (always_raises UnregisteredException)
           "archive.tar.gz" "application/gzip" None empty_store
           UnregisteredException);
    reflexivity || discriminate.
Defined.

(* ------------------------------------------------------------------ *)
(** ** Logging set-up *)

(** X21.  The levels that [configure_level] sets depend on
    [config.verbose] and [config.loglevel] only: [net_debug], whose
    choice of ['NETWORK'] is overwritten by the next assignment, has no
    influence, and neither have [silent], [quiet] and the log file. *)
Theorem configure_level_ignores_net_debug (st : Logging.State)
  (is_verbose : bool) (level : string)
  (silent1 net_debug1 quiet1 silent2 net_debug2 quiet2 : bool)
  (file1 file2 : string) :
  Logging.configure_level
    (Logging.mkConfig silent1 is_verbose net_debug1 quiet1 level file1) st
  = Logging.configure_level
      (Logging.mkConfig silent2 is_verbose net_debug2 quiet2 level file2)
      st.
Proof.
  unfold Logging.configure_level. cbn. reflexivity.
Qed.

(** X22.  Without [verbose], a [config.loglevel] that is not the name of
    a level makes [configure_level] print one line and fall back to
    [DEBUG] for the root logger and the module's logger; the logger
    ['insights.core.dr'] is set to [WARNING]. *)
Theorem configure_level_unknown_name (config : Logging.Config)
  (st : Logging.State) :
  Logging.verbose config = false ->
  Logging.name_to_level (Logging.level_names st) (Logging.loglevel config)
  = None ->
  let st' := Logging.configure_level config st in
  Logging.root_level st' = Logging.DEBUG
  /\ Logging.client_level st' = Logging.DEBUG
  /\ Logging.dr_level st' = Logging.WARNING
  /\ Logging.printed st'
     = (Logging.printed st
        ++ [("Invalid log level " ++ Logging.loglevel config
             ++ ", defaulting to DEBUG")%string])%list.
Proof.
  intros Hverbose Hname.
  unfold Logging.configure_level, Logging.getLevelName.
  rewrite Hverbose, Hname. cbn. repeat split.
Qed.

Lemma configure_level_unknown_name_witness :
  Logging.root_level
    (Logging.configure_level (Logging.example_config false "TRACE")
       Logging.initial)
  = Logging.DEBUG.
Proof.
  apply (configure_level_unknown_name
           (Logging.example_config false "TRACE") Logging.initial);
    reflexivity.
Defined.












